(** * mod_auth/forms.py: validators of the authentication forms

    A shallow embedding of the field validators of [mod_auth/forms.py]
    and of the inline validators of [CompleteSignupForm], [AccountForm]
    and [CompleteResetForm].

    Conventions of the embedding:
    - a validator that returns [None] or raises is a computation in the
      exception monad [Py.result];
    - Python [int] is [Z]; [str] is [string], [len] counts its characters;
    - [User.query] reads the user table, passed explicitly as a list of
      rows in the order the database yields them. *)

From Stdlib Require Import ZArith String Ascii List Bool Lia DecimalString Permutation.
Import ListNotations.

Local Open Scope string_scope.
Local Open Scope Z_scope.

(** ** Python values and exceptions *)

Module Py.

(** The two exception classes the validators can end in:
    [wtforms.validators.ValidationError], raised on purpose, and the
    [AttributeError] of an attribute read on [None] or on an object that
    lacks the attribute. *)
Inductive exn : Type :=
| ValidationError (msg : string)
| AttributeError.

Inductive result (A : Type) : Type :=
| Return (a : A)
| Raise (e : exn).

Arguments Return {A} a.
Arguments Raise {A} e.

Definition bind {A B : Type} (c : result A) (k : A -> result B) : result B :=
  match c with
  | Return a => k a
  | Raise e => Raise e
  end.

(** [len(s)] *)
Definition len (s : string) : Z := Z.of_nat (String.length s).

(** [str(n)], as an f-string formats an [int] field. *)
Definition str (n : Z) : string := NilZero.string_of_int (Z.to_int n).

(** [x is not None] *)
Definition is_not_None {A : Type} (x : option A) : bool :=
  match x with
  | Some _ => true
  | None => false
  end.

(** [a != b] on [str] *)
Definition str_ne (a b : string) : bool := negb (String.eqb a b).

(** [a != b] on [int] *)
Definition int_ne (a b : Z) : bool := negb (Z.eqb a b).

End Py.

Import Py.

Declare Scope py_scope.
Delimit Scope py_scope with py.
Notation "x <- c ;; k" := (Py.bind c (fun x => k))
  (at level 61, c at next level, right associativity) : py_scope.
Local Open Scope py_scope.

(** ** The [User] model and its table *)

Module User.

(** Modelled from the spec: [mod_auth/models.py] is not part of the
    fragment.  A [User] has the attributes name, email and password hash;
    the validators also read its primary key [id]. *)
Record t : Type := mk {
  id : Z;
  name : string;
  email : string;
  password : string
}.

End User.

(** The rows of the user table, in the order a query yields them. *)
Definition UserTable : Type := list User.t.

Module Query.

(** [User.query.filter(criterion)] *)
Definition filter (criterion : User.t -> bool) (table : UserTable) : list User.t :=
  List.filter criterion table.

(** [.first()]: the first row of the result, or [None]. *)
Definition first (rows : list User.t) : option User.t :=
  match rows with
  | [] => None
  | row :: _ => Some row
  end.

End Query.

(** ** Configuration *)

(** Modelled from the spec: [run.config] is not part of the fragment.  The
    record holds [int(config['MIN_PWD_LEN'])] and
    [int(config['MAX_PWD_LEN'])], the two keys the validators read. *)
Record Config : Type := {
  MIN_PWD_LEN : Z;
  MAX_PWD_LEN : Z
}.

(** ** Fields and forms *)

(** A bound field; the validators only read [field.data]. *)
Record Field : Type := { data : string }.

(** The validators are duck-typed in [form]; the one attribute a free
    validator reads from it is [form.user], which only an [AccountForm]
    has.  [getattr_user] is [None] on a form without the attribute and
    otherwise holds its value, a user or Python's [None]. *)
Class FormLike (F : Type) : Type :=
  getattr_user : F -> option (option User.t).

(** ** Free validators *)

(** [unique_username(form, field)] *)
Definition unique_username {F : Type} (table : UserTable) (form : F) (field : Field)
  : result unit :=
  let user :=
    Query.first (Query.filter (fun u => String.eqb (User.name u) (data field)) table) in
  if is_not_None user then
    Raise (ValidationError "There is already a user with this name")
  else Return tt.

(** The f-string of [valid_password]. *)
Definition length_range_message (min_pwd_len max_pwd_len pass_size : Z) : string :=
  "Password needs to be between " ++ str min_pwd_len ++ " and " ++ str max_pwd_len
  ++ " characters long (you entered " ++ str pass_size ++ ")".

(** [valid_password(form, field)] *)
Definition valid_password {F : Type} (config : Config) (form : F) (field : Field)
  : result unit :=
  let min_pwd_len := MIN_PWD_LEN config in
  let max_pwd_len := MAX_PWD_LEN config in
  let pass_size := len (data field) in
  if pass_size =? 0 then
    Raise (ValidationError "new password cannot be empty")
  else if (pass_size <? min_pwd_len) || (pass_size >? max_pwd_len) then
    Raise (ValidationError (length_range_message min_pwd_len max_pwd_len pass_size))
  else Return tt.

(** [form.user.id]: an [AttributeError] when the form has no [user]
    attribute or when the attribute is [None]. *)
Definition form_user_id {F : Type} `{FormLike F} (form : F) : result Z :=
  match getattr_user form with
  | Some (Some u) => Return (User.id u)
  | Some None | None => Raise AttributeError
  end.

(** [email_not_in_use(has_user_field)(form, field)]; the [match] is the
    short-circuit of [user is not None and ...]. *)
Definition email_not_in_use {F : Type} `{FormLike F} (has_user_field : bool)
    (table : UserTable) (form : F) (field : Field) : result unit :=
  user_id <- (if negb has_user_field then Return (-1) else form_user_id form) ;;
  let user :=
    Query.first (Query.filter (fun u => String.eqb (User.email u) (data field)) table) in
  match user with
  | Some u =>
      if int_ne (User.id u) user_id && (len (data field) >? 0) then
        Raise (ValidationError "This address is already in use")
      else Return tt
  | None => Return tt
  end.

(** ** Forms with inline validators *)

Module CompleteSignupForm.

Record t : Type := {
  name : Field;
  password : Field;
  password_repeat : Field
}.

#[global] Instance signup_form_like : FormLike t := fun _ => None.

Definition validate_password_repeat (form : t) (field : Field) : result unit :=
  if str_ne (data field) (data (password form)) then
    Raise (ValidationError "The password needs to match the new password")
  else Return tt.

End CompleteSignupForm.

Module AccountForm.

(** The attributes of an instance.  [user] is [obj], which may be [None];
    [email] is kept as a Python attribute value because
    [validate_new_password_repeat] tests it against [None]. *)
Record t : Type := {
  user : option User.t;
  current_password : Field;
  new_password : Field;
  new_password_repeat : Field;
  name : Field;
  email : option Field
}.

(** [__init__]: the base initialiser binds every declared field to a field
    object holding the processed data, then [self.user = obj]. *)
Definition init (current_password new_password new_password_repeat name email : Field)
    (obj : option User.t) : t :=
  {| user := obj;
     current_password := current_password;
     new_password := new_password;
     new_password_repeat := new_password_repeat;
     name := name;
     email := Some email |}.

#[global] Instance account_form_like : FormLike t := fun form => Some (user form).

(** The validator list of the [email] field ends in [email_not_in_use(True)]. *)
Definition email_validator (table : UserTable) (form : t) (field : Field) : result unit :=
  email_not_in_use true table form field.

Section Validators.

(** [User.is_password_valid(candidate)], a method of the model that is not
    part of the fragment: it verifies the candidate against the stored
    hash. *)
Variable is_password_valid : User.t -> string -> bool.

Variable config : Config.

Definition validate_current_password (form : t) (field : Field) : result unit :=
  match user form with
  | None => Raise (ValidationError "User instance not passed to form validation")
  | Some u =>
      if negb (is_password_valid u (data field)) then
        Raise (ValidationError "Invalid password")
      else Return tt
  end.

Definition validate_new_password (form : t) (field : Field) : result unit :=
  if (len (data field) =? 0) && (len (data (new_password_repeat form)) =? 0) then
    Return tt
  else valid_password config form field.

Definition validate_new_password_repeat (form : t) (field : Field) : result unit :=
  let match_check :=
    if str_ne (data field) (data (new_password form)) then
      Raise (ValidationError "The password needs to match the new password")
    else Return tt in
  if is_not_None (email form) then
    if (len (data field) =? 0) && (len (data (new_password form)) =? 0) then
      Return tt
    else match_check
  else match_check.

End Validators.

(** The validator the guard on [form.email] reduces to: skip when both
    new-password fields are empty, otherwise compare. *)
Definition validate_new_password_repeat_simple (form : t) (field : Field) : result unit :=
  if (len (data field) =? 0) && (len (data (new_password form)) =? 0) then
    Return tt
  else if str_ne (data field) (data (new_password form)) then
    Raise (ValidationError "The password needs to match the new password")
  else Return tt.

(** Functional updates of the attributes the statements vary. *)
Definition with_new_passwords (np npr : Field) (form : t) : t :=
  {| user := user form;
     current_password := current_password form;
     new_password := np;
     new_password_repeat := npr;
     name := name form;
     email := email form |}.

Definition with_email (e : option Field) (form : t) : t :=
  {| user := user form;
     current_password := current_password form;
     new_password := new_password form;
     new_password_repeat := new_password_repeat form;
     name := name form;
     email := e |}.

End AccountForm.

Module CompleteResetForm.

Record t : Type := {
  password : Field;
  password_repeat : Field
}.

#[global] Instance reset_form_like : FormLike t := fun _ => None.

Definition validate_password_repeat (form : t) (field : Field) : result unit :=
  if str_ne (data field) (data (password form)) then
    Raise (ValidationError "The password needs to match the new password")
  else Return tt.

End CompleteResetForm.

(** ** Well-formed user tables *)

(** No two users of [users] with different primary keys share an email
    address. *)
Definition email_unique (users : list User.t) : Prop :=
  forall u v, In u users -> In v users ->
    User.email u = User.email v -> User.id u = User.id v.

(** A non-empty [address] that the form's user [me] holds, as the email
    of the object or as the email of the row with its id, while a row with
    another id holds it as well. *)
Definition shared_address (me : User.t) (table : UserTable) (address : string) : Prop :=
  address <> "" /\
  (User.email me = address \/
   exists mine, In mine table /\ User.id mine = User.id me /\ User.email mine = address) /\
  exists other, In other table /\ User.id other <> User.id me /\ User.email other = address.

(** The rest of [_email_not_in_use] once [user_id] is known: the lookup
    and the test on the row it finds. *)
Definition email_check (user_id : Z) (table : UserTable) (field : Field) : result unit :=
  match Query.first
          (Query.filter (fun u => String.eqb (User.email u) (data field)) table) with
  | Some u =>
      if int_ne (User.id u) user_id && (len (data field) >? 0) then
        Raise (ValidationError "This address is already in use")
      else Return tt
  | None => Return tt
  end.

(** ** Sample data *)

(** A configuration that asks for passwords of 10 to 500 characters. *)
Definition sample_config : Config := {| MIN_PWD_LEN := 10; MAX_PWD_LEN := 500 |}.

Definition alice : User.t :=
  User.mk 1 "alice" "alice@example.org" "wonderland".

Definition bob : User.t :=
  User.mk 2 "bob" "bob@example.org" "builder".

(** A second account registered under Alice's address. *)
Definition alias : User.t :=
  User.mk 3 "alias" "alice@example.org" "looking glass".

(** Two accounts that share one address. *)
Definition carol : User.t :=
  User.mk 5 "carol" "carol@example.org" "singer".

Definition carla : User.t :=
  User.mk 6 "carla" "carol@example.org" "dancer".

(** An account whose email is the empty string. *)
Definition ghost : User.t :=
  User.mk 4 "ghost" "" "unseen".

(** A stand-in for the hash verification: the stored hash is the password. *)
Definition sample_is_password_valid (u : User.t) (candidate : string) : bool :=
  String.eqb (User.password u) candidate.

(** Alice edits her account and leaves both new-password fields empty. *)
Definition sample_account_form : AccountForm.t :=
  AccountForm.init {| data := "wonderland" |} {| data := "" |} {| data := "" |}
    {| data := "alice" |} {| data := "alice@example.org" |} (Some alice).

(** Bounds no length can meet. *)
Definition inverted_config : Config := {| MIN_PWD_LEN := 20; MAX_PWD_LEN := 8 |}.

(** A sign-up completed by a new user. *)
Definition sample_signup_form : CompleteSignupForm.t :=
  {| CompleteSignupForm.name := {| data := "carol" |};
     CompleteSignupForm.password := {| data := "correct horse" |};
     CompleteSignupForm.password_repeat := {| data := "correct horse" |} |}.

Definition sample_reset_form : CompleteResetForm.t :=
  {| CompleteResetForm.password := {| data := "battery staple" |};
     CompleteResetForm.password_repeat := {| data := "battery staple" |} |}.

(** * Properties *)

(** ** Strings, lengths and queries *)

Lemma len_nonneg (s : string) : 0 <= len s.
Proof. unfold len. lia. Qed.

Lemma len_zero_empty (s : string) : len s = 0 <-> s = "".
Proof.
  unfold len. split.
  - destruct s as [|c s']; [reflexivity | simpl; lia].
  - intros ->. reflexivity.
Qed.

Lemma len_eqb_zero (s : string) : (len s =? 0) = String.eqb s "".
Proof.
  destruct s as [|c s']; [reflexivity |].
  unfold len. simpl String.length.
  destruct (Z.eqb_spec (Z.of_nat (S (String.length s'))) 0); [lia | reflexivity].
Qed.

Lemma str_ne_false (a b : string) : str_ne a b = false <-> a = b.
Proof.
  unfold str_ne. rewrite negb_false_iff. apply String.eqb_eq.
Qed.

Lemma str_ne_true (a b : string) : str_ne a b = true <-> a <> b.
Proof.
  unfold str_ne. rewrite negb_true_iff. apply String.eqb_neq.
Qed.

Lemma first_filter_Some (p : User.t -> bool) (table : UserTable) (u : User.t) :
  Query.first (Query.filter p table) = Some u -> In u table /\ p u = true.
Proof.
  unfold Query.filter. intros Hfirst.
  assert (Hin : In u (List.filter p table)).
  { destruct (List.filter p table) as [|row rows]; simpl in Hfirst.
    - discriminate.
    - injection Hfirst as ->. now left. }
  now apply filter_In in Hin.
Qed.

Lemma first_filter_None (p : User.t -> bool) (table : UserTable) :
  Query.first (Query.filter p table) = None <->
  forall u, In u table -> p u = false.
Proof.
  unfold Query.filter. induction table as [|row rows IH]; simpl.
  - split; [intros _ u [] | reflexivity].
  - destruct (p row) eqn:Hrow; simpl.
    + split; [discriminate |].
      intros Hall. specialize (Hall row (or_introl eq_refl)). congruence.
    + rewrite IH. split.
      * intros Hall u [<- | Hin]; auto.
      * intros Hall u Hin. apply Hall. now right.
Qed.

Lemma first_filter_exists (p : User.t -> bool) (table : UserTable) :
  (exists u, In u table /\ p u = true) <->
  exists v, Query.first (Query.filter p table) = Some v.
Proof.
  split.
  - intros (u & Hin & Hp).
    destruct (Query.first (Query.filter p table)) as [v|] eqn:Hfirst.
    + now exists v.
    + rewrite first_filter_None in Hfirst. rewrite (Hfirst u Hin) in Hp. discriminate.
  - intros (v & Hfirst). exists v. now apply first_filter_Some.
Qed.

(** ** [valid_password] *)

Lemma valid_password_empty {F : Type} (config : Config) (form : F) (field : Field) :
  len (data field) = 0 ->
  valid_password config form field = Raise (ValidationError "new password cannot be empty").
Proof.
  intros Hlen. unfold valid_password. rewrite Hlen. reflexivity.
Qed.

Lemma length_range_message_head (a b c : Z) :
  exists rest, length_range_message a b c = String "P" rest.
Proof. unfold length_range_message. simpl. eauto. Qed.

(** C2, as stated, fails at the empty password: its length 0 is below the
    minimum 10, yet the error raised is the empty-password one and not the
    length-range message. *)
Lemma valid_password_range_message_not_for_empty :
  let field := {| data := "" |} in
  (len (data field) < MIN_PWD_LEN sample_config \/
   len (data field) > MAX_PWD_LEN sample_config) /\
  valid_password sample_config tt field
    = Raise (ValidationError "new password cannot be empty") /\
  valid_password sample_config tt field
    <> Raise (ValidationError
         (length_range_message (MIN_PWD_LEN sample_config) (MAX_PWD_LEN sample_config)
            (len (data field)))).
Proof.
  cbv zeta. split; [left; reflexivity |].
  split; [reflexivity |]. vm_compute. discriminate.
Qed.

(** C2 (amended): for every non-empty password whose length is strictly
    below [MIN_PWD_LEN] or strictly above [MAX_PWD_LEN], [valid_password]
    raises a [ValidationError] with the length-range message, which names
    the configured minimum, the configured maximum and the entered length. *)
Theorem valid_password_out_of_range {F : Type} (config : Config) (form : F) (field : Field) :
  len (data field) <> 0 ->
  len (data field) < MIN_PWD_LEN config \/ len (data field) > MAX_PWD_LEN config ->
  valid_password config form field
    = Raise (ValidationError
        (length_range_message (MIN_PWD_LEN config) (MAX_PWD_LEN config) (len (data field)))).
Proof.
  intros Hne Hout. unfold valid_password.
  destruct (Z.eqb_spec (len (data field)) 0) as [Hz | _]; [contradiction |].
  destruct (Z.ltb_spec (len (data field)) (MIN_PWD_LEN config)) as [Hlt | Hge]; simpl.
  - reflexivity.
  - destruct Hout as [Hlt | Hgt]; [lia |].
    rewrite Z.gtb_ltb.
    destruct (Z.ltb_spec (MAX_PWD_LEN config) (len (data field))); [reflexivity | lia].
Qed.

Lemma valid_password_out_of_range_witness :
  valid_password sample_config tt {| data := "short" |}
    = Raise (ValidationError
        "Password needs to be between 10 and 500 characters long (you entered 5)").
Proof.
  apply (valid_password_out_of_range sample_config tt {| data := "short" |}).
  - vm_compute. discriminate.
  - left. reflexivity.
Defined.

(** C3: for every empty password, [valid_password] raises a
    [ValidationError] with the empty-password message; the emptiness test
    comes before the range test, so no length-range message, whatever its
    numbers, is produced for an empty password. *)
Theorem valid_password_empty_checked_first {F : Type}
    (config : Config) (form : F) (field : Field) :
  len (data field) = 0 ->
  valid_password config form field
    = Raise (ValidationError "new password cannot be empty") /\
  forall a b c : Z,
    valid_password config form field
      <> Raise (ValidationError (length_range_message a b c)).
Proof.
  intros Hlen. rewrite (valid_password_empty config form field Hlen).
  split; [reflexivity |].
  intros a b c Heq. destruct (length_range_message_head a b c) as [rest Hrest].
  rewrite Hrest in Heq. discriminate.
Qed.

Lemma valid_password_empty_checked_first_witness :
  valid_password sample_config tt {| data := "" |}
    = Raise (ValidationError "new password cannot be empty") /\
  forall a b c : Z,
    valid_password sample_config tt {| data := "" |}
      <> Raise (ValidationError (length_range_message a b c)).
Proof.
  apply (valid_password_empty_checked_first sample_config tt {| data := "" |}).
  reflexivity.
Defined.

(** ** Password-repeat validators *)

(** C4: in [CompleteSignupForm] and in [CompleteResetForm], for every pair
    of a password and a repeated password, [validate_password_repeat]
    raises a [ValidationError] when the two differ and returns when they
    are equal. *)
Theorem validate_password_repeat_match
    (signup : CompleteSignupForm.t) (reset : CompleteResetForm.t) (field : Field) :
  (data field <> data (CompleteSignupForm.password signup) ->
   CompleteSignupForm.validate_password_repeat signup field
     = Raise (ValidationError "The password needs to match the new password")) /\
  (data field = data (CompleteSignupForm.password signup) ->
   CompleteSignupForm.validate_password_repeat signup field = Return tt) /\
  (data field <> data (CompleteResetForm.password reset) ->
   CompleteResetForm.validate_password_repeat reset field
     = Raise (ValidationError "The password needs to match the new password")) /\
  (data field = data (CompleteResetForm.password reset) ->
   CompleteResetForm.validate_password_repeat reset field = Return tt).
Proof.
  unfold CompleteSignupForm.validate_password_repeat,
    CompleteResetForm.validate_password_repeat.
  repeat split; intros Hcmp.
  - apply str_ne_true in Hcmp. now rewrite Hcmp.
  - apply str_ne_false in Hcmp. now rewrite Hcmp.
  - apply str_ne_true in Hcmp. now rewrite Hcmp.
  - apply str_ne_false in Hcmp. now rewrite Hcmp.
Qed.

Lemma validate_password_repeat_match_witness :
  let signup := {| CompleteSignupForm.name := {| data := "alice" |};
                   CompleteSignupForm.password := {| data := "correct horse" |};
                   CompleteSignupForm.password_repeat := {| data := "correct hose" |} |} in
  let reset := {| CompleteResetForm.password := {| data := "battery staple" |};
                  CompleteResetForm.password_repeat := {| data := "battery staple" |} |} in
  CompleteSignupForm.validate_password_repeat signup
      (CompleteSignupForm.password_repeat signup)
    = Raise (ValidationError "The password needs to match the new password") /\
  CompleteSignupForm.validate_password_repeat signup (CompleteSignupForm.password signup)
    = Return tt /\
  CompleteResetForm.validate_password_repeat reset (CompleteSignupForm.password_repeat signup)
    = Raise (ValidationError "The password needs to match the new password") /\
  CompleteResetForm.validate_password_repeat reset (CompleteResetForm.password_repeat reset)
    = Return tt.
Proof.
  intros signup reset.
  split; [| split; [| split]].
  - apply (validate_password_repeat_match signup reset
             (CompleteSignupForm.password_repeat signup)).
    vm_compute. discriminate.
  - apply (validate_password_repeat_match signup reset (CompleteSignupForm.password signup)).
    reflexivity.
  - apply (validate_password_repeat_match signup reset
             (CompleteSignupForm.password_repeat signup)).
    vm_compute. discriminate.
  - apply (validate_password_repeat_match signup reset
             (CompleteResetForm.password_repeat reset)).
    reflexivity.
Defined.

(** ** [AccountForm] *)

(** C5: [validate_current_password] raises a [ValidationError] when the
    form has no user ([form.user], the [obj] given to [__init__], is
    [None]), raises the [ValidationError]
    'Invalid password' when the user's [is_password_valid] rejects the
    submitted current password, and returns when a user is present and the
    password verifies. *)
Theorem validate_current_password_cases
    (is_password_valid : User.t -> string -> bool) (form : AccountForm.t) (field : Field) :
  (forall (cp np npr nm em : Field) (obj : option User.t),
     AccountForm.user (AccountForm.init cp np npr nm em obj) = obj) /\
  (AccountForm.user form = None ->
   AccountForm.validate_current_password is_password_valid form field
     = Raise (ValidationError "User instance not passed to form validation")) /\
  (forall u, AccountForm.user form = Some u ->
     is_password_valid u (data field) = false ->
     AccountForm.validate_current_password is_password_valid form field
       = Raise (ValidationError "Invalid password")) /\
  (forall u, AccountForm.user form = Some u ->
     is_password_valid u (data field) = true ->
     AccountForm.validate_current_password is_password_valid form field = Return tt).
Proof.
  unfold AccountForm.validate_current_password.
  split; [reflexivity |]. split; [| split].
  - intros ->. reflexivity.
  - intros u -> ->. reflexivity.
  - intros u -> ->. reflexivity.
Qed.

Lemma validate_current_password_cases_witness :
  AccountForm.validate_current_password sample_is_password_valid
      (AccountForm.init {| data := "wonderland" |} {| data := "" |} {| data := "" |}
         {| data := "alice" |} {| data := "alice@example.org" |} None)
      {| data := "wonderland" |}
    = Raise (ValidationError "User instance not passed to form validation") /\
  AccountForm.validate_current_password sample_is_password_valid
      sample_account_form {| data := "looking glass" |}
    = Raise (ValidationError "Invalid password") /\
  AccountForm.validate_current_password sample_is_password_valid
      sample_account_form (AccountForm.current_password sample_account_form)
    = Return tt.
Proof.
  split; [| split].
  - apply (proj1 (proj2 (validate_current_password_cases sample_is_password_valid
                           (AccountForm.init {| data := "wonderland" |} {| data := "" |}
                              {| data := "" |} {| data := "alice" |}
                              {| data := "alice@example.org" |} None)
                           {| data := "wonderland" |}))).
    reflexivity.
  - apply (proj1 (proj2 (proj2 (validate_current_password_cases sample_is_password_valid
                                  sample_account_form {| data := "looking glass" |})))
             alice); reflexivity.
  - apply (proj2 (proj2 (proj2 (validate_current_password_cases sample_is_password_valid
                                  sample_account_form
                                  (AccountForm.current_password sample_account_form))))
             alice); reflexivity.
Defined.

(** C1: when the [new_password] and [new_password_repeat] fields of an
    [AccountForm] are both empty strings, neither [validate_new_password]
    nor [validate_new_password_repeat] raises, and the outcome of
    [validate_current_password] is the one it has for any other content of
    the two new-password fields. *)
Theorem account_form_empty_new_passwords
    (is_password_valid : User.t -> string -> bool) (config : Config)
    (form : AccountForm.t) :
  data (AccountForm.new_password form) = "" ->
  data (AccountForm.new_password_repeat form) = "" ->
  AccountForm.validate_new_password config form (AccountForm.new_password form)
    = Return tt /\
  AccountForm.validate_new_password_repeat form (AccountForm.new_password_repeat form)
    = Return tt /\
  forall np npr : Field,
    AccountForm.validate_current_password is_password_valid
      (AccountForm.with_new_passwords np npr form) (AccountForm.current_password form)
    = AccountForm.validate_current_password is_password_valid
        form (AccountForm.current_password form).
Proof.
  intros Hnew Hrepeat. split; [| split].
  - unfold AccountForm.validate_new_password. rewrite Hnew, Hrepeat. reflexivity.
  - unfold AccountForm.validate_new_password_repeat. rewrite Hnew, Hrepeat.
    destruct (AccountForm.email form); reflexivity.
  - intros np npr. reflexivity.
Qed.

Lemma account_form_empty_new_passwords_witness :
  AccountForm.validate_new_password sample_config sample_account_form
      (AccountForm.new_password sample_account_form)
    = Return tt /\
  AccountForm.validate_new_password_repeat sample_account_form
      (AccountForm.new_password_repeat sample_account_form)
    = Return tt /\
  forall np npr : Field,
    AccountForm.validate_current_password sample_is_password_valid
      (AccountForm.with_new_passwords np npr sample_account_form)
      (AccountForm.current_password sample_account_form)
    = AccountForm.validate_current_password sample_is_password_valid
        sample_account_form (AccountForm.current_password sample_account_form).
Proof.
  apply (account_form_empty_new_passwords sample_is_password_valid sample_config
           sample_account_form); reflexivity.
Defined.

(** C9: when [new_password] is the empty string and [new_password_repeat]
    is not, [validate_new_password] does not skip: it raises the
    [ValidationError] 'new password cannot be empty' of [valid_password];
    more generally, unless both fields are empty the validator is
    [valid_password] on the field. *)
Theorem validate_new_password_empty_with_repeat (config : Config) (form : AccountForm.t) :
  (data (AccountForm.new_password form) = "" ->
   data (AccountForm.new_password_repeat form) <> "" ->
   AccountForm.validate_new_password config form (AccountForm.new_password form)
     = Raise (ValidationError "new password cannot be empty")) /\
  (forall field : Field,
     data field <> "" \/ data (AccountForm.new_password_repeat form) <> "" ->
     AccountForm.validate_new_password config form field
       = valid_password config form field).
Proof.
  assert (Hgen : forall field : Field,
             data field <> "" \/ data (AccountForm.new_password_repeat form) <> "" ->
             AccountForm.validate_new_password config form field
               = valid_password config form field).
  { intros field Hsome. unfold AccountForm.validate_new_password.
    rewrite !len_eqb_zero.
    destruct Hsome as [Hne | Hne]; apply String.eqb_neq in Hne; rewrite Hne;
      [reflexivity | now rewrite andb_false_r]. }
  split; [| exact Hgen].
  intros Hnew Hrepeat. rewrite Hgen by now right.
  apply valid_password_empty. now rewrite Hnew.
Qed.

Lemma validate_new_password_empty_with_repeat_witness :
  let form := AccountForm.with_new_passwords {| data := "" |} {| data := "new secret 1" |}
                sample_account_form in
  AccountForm.validate_new_password sample_config form (AccountForm.new_password form)
    = Raise (ValidationError "new password cannot be empty") /\
  AccountForm.validate_new_password sample_config form (AccountForm.new_password_repeat form)
    = valid_password sample_config form (AccountForm.new_password_repeat form).
Proof.
  intros form. split.
  - apply (proj1 (validate_new_password_empty_with_repeat sample_config form)).
    + reflexivity.
    + vm_compute. discriminate.
  - apply (proj2 (validate_new_password_empty_with_repeat sample_config form)).
    left. vm_compute. discriminate.
Defined.

(** C10: in [validate_new_password_repeat] the guard [form.email is not
    None] holds for every form built by [__init__]; the validator equals
    the simpler one that skips when both new-password fields are empty and
    otherwise raises exactly when the repeat differs from [new_password],
    and its outcome does not depend on the [email] attribute. *)
Theorem validate_new_password_repeat_guard_redundant :
  (forall (cp np npr nm em : Field) (obj : option User.t),
     is_not_None (AccountForm.email (AccountForm.init cp np npr nm em obj)) = true) /\
  (forall (form : AccountForm.t) (field : Field),
     AccountForm.validate_new_password_repeat form field
       = AccountForm.validate_new_password_repeat_simple form field) /\
  (forall (form : AccountForm.t) (field : Field),
     AccountForm.validate_new_password_repeat_simple form field = Return tt
       <-> data field = data (AccountForm.new_password form)) /\
  (forall (form : AccountForm.t) (field : Field) (e : option Field),
     AccountForm.validate_new_password_repeat (AccountForm.with_email e form) field
       = AccountForm.validate_new_password_repeat form field).
Proof.
  assert (Hboth : forall a b : string,
             (len a =? 0) && (len b =? 0) = true -> str_ne a b = false).
  { intros a b Hlen. apply andb_true_iff in Hlen as [Ha Hb].
    apply Z.eqb_eq, len_zero_empty in Ha, Hb. subst. reflexivity. }
  assert (Heq : forall (form : AccountForm.t) (field : Field),
             AccountForm.validate_new_password_repeat form field
               = AccountForm.validate_new_password_repeat_simple form field).
  { intros form field.
    unfold AccountForm.validate_new_password_repeat,
      AccountForm.validate_new_password_repeat_simple.
    destruct (AccountForm.email form) as [e|]; simpl; [reflexivity |].
    destruct ((len (data field) =? 0)
              && (len (data (AccountForm.new_password form)) =? 0)) eqn:Hlen;
      [| reflexivity].
    now rewrite (Hboth _ _ Hlen). }
  split; [reflexivity |]. split; [exact Heq |]. split.
  - intros form field. unfold AccountForm.validate_new_password_repeat_simple.
    destruct ((len (data field) =? 0)
              && (len (data (AccountForm.new_password form)) =? 0)) eqn:Hlen.
    + apply Hboth, str_ne_false in Hlen. tauto.
    + destruct (str_ne (data field) (data (AccountForm.new_password form))) eqn:Hne.
      * apply str_ne_true in Hne. split; [discriminate | contradiction].
      * apply str_ne_false in Hne. tauto.
  - intros form field e. rewrite !Heq. reflexivity.
Qed.

(** ** Validators that query the user table *)

(** C8: [unique_username] raises the [ValidationError] 'There is already a
    user with this name' exactly when some user of the table has the
    submitted name, and returns when there is none. *)
Theorem unique_username_raises_iff {F : Type}
    (table : UserTable) (form : F) (field : Field) :
  (unique_username table form field
     = Raise (ValidationError "There is already a user with this name")
   <-> exists u, In u table /\ User.name u = data field) /\
  (unique_username table form field = Return tt
   <-> ~ exists u, In u table /\ User.name u = data field).
Proof.
  unfold unique_username.
  set (same_name := fun u : User.t => String.eqb (User.name u) (data field)).
  assert (Hex : (exists u, In u table /\ User.name u = data field)
                <-> exists v, Query.first (Query.filter same_name table) = Some v).
  { rewrite <- first_filter_exists. unfold same_name.
    split; intros (u & Hin & Hname); exists u; split; auto;
      now apply String.eqb_eq. }
  rewrite Hex.
  destruct (Query.first (Query.filter same_name table)) as [v|]; simpl.
  - split; split; try discriminate; eauto.
    intros Hnone. exfalso. apply Hnone. now exists v.
  - split; split; try discriminate; auto.
    + intros (v & Hv). discriminate.
    + intros _ (v & Hv). discriminate.
Qed.

(** C7: whatever the user table holds, [email_not_in_use] raises no
    [ValidationError] for an empty email; it returns whenever the user id
    to exclude can be read, that is without [has_user_field] or on a form
    that holds a user. *)
Theorem email_not_in_use_empty_skipped {F : Type} `{FormLike F}
    (has_user_field : bool) (table : UserTable) (form : F) (field : Field) :
  len (data field) = 0 ->
  (forall msg, email_not_in_use has_user_field table form field
                 <> Raise (ValidationError msg)) /\
  (has_user_field = false \/ (exists u, getattr_user form = Some (Some u)) ->
   email_not_in_use has_user_field table form field = Return tt).
Proof.
  intros Hlen.
  assert (Hbody : forall user_id : Z,
             match Query.first
                     (Query.filter (fun u => String.eqb (User.email u) (data field)) table)
             with
             | Some u =>
                 if int_ne (User.id u) user_id && (len (data field) >? 0) then
                   Raise (ValidationError "This address is already in use")
                 else Return tt
             | None => Return tt
             end = Return tt).
  { intros user_id. rewrite Hlen.
    destruct (Query.first _) as [v|]; [| reflexivity].
    now rewrite andb_false_r. }
  unfold email_not_in_use, form_user_id. split.
  - intros msg.
    destruct has_user_field; simpl.
    + destruct (getattr_user form) as [[u|]|]; simpl;
        [rewrite Hbody |..]; discriminate.
    + rewrite Hbody. discriminate.
  - intros [-> | (u & ->)]; simpl.
    + apply Hbody.
    + destruct has_user_field; simpl; apply Hbody.
Qed.

Lemma email_not_in_use_empty_skipped_witness :
  let table := [bob; ghost; alice] in
  (forall msg, email_not_in_use true table sample_account_form {| data := "" |}
                 <> Raise (ValidationError msg)) /\
  email_not_in_use true table sample_account_form {| data := "" |} = Return tt.
Proof.
  intros table.
  destruct (email_not_in_use_empty_skipped true table sample_account_form {| data := "" |})
    as [Hnever Hreturn]; [reflexivity |].
  split; [exact Hnever |].
  apply Hreturn. right. exists alice. reflexivity.
Defined.

(** When Alice shares her address with an account of another id the
    outcome depends on the order of the rows: with Alice's row first the
    lookup finds Alice herself and the validator returns, although [alias]
    holds the submitted address; with [alias]'s row first Alice's own
    address is rejected.  No outcome could be right for both readings of
    such a table, which is why the statement below leaves it out. *)
Lemma email_not_in_use_shared_address :
  let field := {| data := "alice@example.org" |} in
  AccountForm.user sample_account_form = Some alice /\
  (In alias [alice; alias] /\
   User.email alias = data field /\ data field <> "" /\
   User.id alias <> User.id alice /\
   AccountForm.email_validator [alice; alias] sample_account_form field = Return tt) /\
  (data field = User.email alice /\
   AccountForm.email_validator [alias; alice] sample_account_form field
     = Raise (ValidationError "This address is already in use")).
Proof.
  cbv zeta. split; [reflexivity |]. split.
  - split; [right; left; reflexivity |].
    split; [reflexivity |]. split; [discriminate |]. split; [discriminate | reflexivity].
  - split; reflexivity.
Qed.

(** A table in which every address has one id shares none. *)
Lemma email_unique_not_shared (me : User.t) (table : UserTable) (address : string) :
  email_unique (me :: table) -> ~ shared_address me table address.
Proof.
  intros Hunique (_ & Hmine & other & Hin & Hid & Hemail).
  apply Hid. destruct Hmine as [Hown | (mine & Hmin & Hmid & Hmemail)].
  - apply Hunique; [now right | now left | congruence].
  - rewrite <- Hmid. apply Hunique; [now right | now right | congruence].
Qed.

(** C6: for an [AccountForm] with an associated user, a submitted
    non-empty email equal to the email of an existing user whose id
    differs from the associated user's id makes the form's
    [email_not_in_use(True)] raise a [ValidationError], and a submitted
    email equal to the associated user's own email passes.  The two cases
    are read as exclusive: the submitted address is not at once an address
    of the associated user and the address of a user with another id.
    Other addresses may be shared freely. *)
Theorem email_not_in_use_excludes_self
    (table : UserTable) (form : AccountForm.t) (field : Field) (me : User.t) :
  AccountForm.user form = Some me ->
  ~ shared_address me table (data field) ->
  (forall other, In other table ->
     User.email other = data field -> data field <> "" ->
     User.id other <> User.id me ->
     AccountForm.email_validator table form field
       = Raise (ValidationError "This address is already in use")) /\
  (data field = User.email me ->
   AccountForm.email_validator table form field = Return tt).
Proof.
  intros Huser Hnot.
  unfold AccountForm.email_validator, email_not_in_use, form_user_id, getattr_user,
    AccountForm.account_form_like.
  rewrite Huser. simpl.
  set (same_email := fun u : User.t => String.eqb (User.email u) (data field)).
  split.
  - intros other Hin Hemail Hnonempty Hid.
    destruct (proj1 (first_filter_exists same_email table)) as [found Hfound].
    { exists other. split; [exact Hin |]. unfold same_email. now apply String.eqb_eq. }
    rewrite Hfound. apply first_filter_Some in Hfound as [Hfin Hfemail].
    apply String.eqb_eq in Hfemail.
    assert (Hdiff : User.id found <> User.id me).
    { intros Hsame. apply Hnot. split; [exact Hnonempty |]. split.
      - right. now exists found.
      - now exists other. }
    unfold int_ne. apply Z.eqb_neq in Hdiff. rewrite Hdiff. simpl.
    assert (Hpos : 0 < len (data field)).
    { pose proof (len_nonneg (data field)) as Hge.
      destruct (Z.eq_dec (len (data field)) 0) as [Hz | Hnz]; [| lia].
      apply len_zero_empty in Hz. contradiction. }
    rewrite Z.gtb_ltb. apply Z.ltb_lt in Hpos. now rewrite Hpos.
  - intros Hown.
    destruct (Query.first (Query.filter same_email table)) as [found|] eqn:Hfound;
      [| reflexivity].
    apply first_filter_Some in Hfound as [Hfin Hfemail].
    apply String.eqb_eq in Hfemail.
    destruct (String.eqb_spec (data field) "") as [Hempty | Hnonempty].
    { rewrite Hempty. simpl. now rewrite andb_false_r. }
    destruct (Z.eq_dec (User.id found) (User.id me)) as [Hsame | Hdiff].
    + unfold int_ne. rewrite Hsame, Z.eqb_refl. reflexivity.
    + exfalso. apply Hnot. split; [exact Hnonempty |]. split.
      * now left.
      * now exists found.
Qed.

Lemma email_not_in_use_excludes_self_witness :
  let table := [carol; bob; carla; alice] in
  AccountForm.email_validator table sample_account_form {| data := "carol@example.org" |}
    = Raise (ValidationError "This address is already in use") /\
  AccountForm.email_validator table sample_account_form {| data := "alice@example.org" |}
    = Return tt.
Proof.
  intros table.
  assert (Hcarol : ~ shared_address alice table "carol@example.org").
  { intros (_ & [Hown | (mine & Hin & Hid & Hemail)] & _); [discriminate |].
    simpl in Hin. destruct Hin as [<- | [<- | [<- | [<- | []]]]]; discriminate. }
  assert (Hown : ~ shared_address alice table "alice@example.org").
  { intros (_ & _ & other & Hin & Hid & Hemail).
    simpl in Hin. destruct Hin as [<- | [<- | [<- | [<- | []]]]];
      try discriminate. now apply Hid. }
  split.
  - apply (proj1 (email_not_in_use_excludes_self table sample_account_form
                    {| data := "carol@example.org" |} alice eq_refl Hcarol) carla).
    + right. right. left. reflexivity.
    + reflexivity.
    + vm_compute. discriminate.
    + vm_compute. discriminate.
  - apply (proj2 (email_not_in_use_excludes_self table sample_account_form
                    {| data := "alice@example.org" |} alice eq_refl Hown)).
    reflexivity.
Defined.

(** * Further properties of the validators *)

(** ** Acceptance of passwords *)

Lemma valid_password_Return_iff {F : Type} (config : Config) (form : F) (field : Field) :
  valid_password config form field = Return tt <->
  data field <> "" /\
  MIN_PWD_LEN config <= len (data field) <= MAX_PWD_LEN config.
Proof.
  unfold valid_password. rewrite <- len_zero_empty, Z.gtb_ltb.
  destruct (Z.eqb_spec (len (data field)) 0) as [Hz | Hnz].
  - split; [discriminate | tauto].
  - destruct (Z.ltb_spec (len (data field)) (MIN_PWD_LEN config));
      destruct (Z.ltb_spec (MAX_PWD_LEN config) (len (data field))); simpl;
      split; try discriminate; try (intros; lia); intros _; split; auto; lia.
Qed.

Lemma validate_new_password_repeat_Return_iff (form : AccountForm.t) (field : Field) :
  AccountForm.validate_new_password_repeat form field = Return tt <->
  data field = data (AccountForm.new_password form).
Proof.
  unfold AccountForm.validate_new_password_repeat.
  destruct (str_ne (data field) (data (AccountForm.new_password form))) eqn:Hne.
  - apply str_ne_true in Hne.
    assert (Hlen : (len (data field) =? 0)
                   && (len (data (AccountForm.new_password form)) =? 0) = false).
    { apply andb_false_iff.
      destruct (Z.eqb_spec (len (data field)) 0) as [Ha |]; [| now left].
      destruct (Z.eqb_spec (len (data (AccountForm.new_password form))) 0) as [Hb |];
        [| now right].
      apply len_zero_empty in Ha, Hb. congruence. }
    rewrite Hlen.
    destruct (is_not_None (AccountForm.email form)); split; try discriminate; contradiction.
  - apply str_ne_false in Hne.
    destruct (is_not_None (AccountForm.email form));
      [destruct (_ && _) |]; tauto.
Qed.

(** X1: [valid_password] returns exactly for a non-empty password whose
    length lies between [MIN_PWD_LEN] and [MAX_PWD_LEN], bounds included;
    whenever it does not return, what it raises is a [ValidationError]. *)
Theorem valid_password_accepts_iff {F : Type} (config : Config) (form : F) (field : Field) :
  (valid_password config form field = Return tt <->
   data field <> "" /\
   MIN_PWD_LEN config <= len (data field) <= MAX_PWD_LEN config) /\
  (forall e, valid_password config form field = Raise e ->
     exists msg, e = ValidationError msg).
Proof.
  split; [apply valid_password_Return_iff |].
  unfold valid_password. intros e.
  destruct (len (data field) =? 0); [intros [= <-]; eauto |].
  destruct (_ || _); [intros [= <-]; eauto | discriminate].
Qed.

(** X2: when the configured maximum is below the configured minimum, or
    below 1, [valid_password] rejects every password. *)
Theorem valid_password_unsatisfiable_bounds {F : Type} (config : Config) :
  MAX_PWD_LEN config < MIN_PWD_LEN config \/ MAX_PWD_LEN config < 1 ->
  forall (form : F) (field : Field),
    exists msg, valid_password config form field = Raise (ValidationError msg).
Proof.
  intros Hbounds form field.
  destruct (valid_password config form field) as [[]|e] eqn:Hvalid.
  - apply valid_password_Return_iff in Hvalid as [Hne Hrange].
    assert (len (data field) <> 0) by now rewrite len_zero_empty.
    pose proof (len_nonneg (data field)). lia.
  - revert Hvalid. unfold valid_password.
    destruct (len (data field) =? 0); [intros [= <-]; eauto |].
    destruct (_ || _); [intros [= <-]; eauto | discriminate].
Qed.

Lemma valid_password_unsatisfiable_bounds_witness :
  exists msg,
    valid_password inverted_config sample_signup_form
      (CompleteSignupForm.password sample_signup_form)
    = Raise (ValidationError msg).
Proof.
  apply (valid_password_unsatisfiable_bounds inverted_config).
  left. reflexivity.
Defined.

(** X3: the two new-password validators of an [AccountForm] both return
    exactly when both fields are empty, or when the repeat equals the new
    password and the new password is non-empty with a length within the
    configured bounds. *)
Theorem account_new_password_accepted_iff (config : Config) (form : AccountForm.t) :
  AccountForm.validate_new_password config form (AccountForm.new_password form)
    = Return tt /\
  AccountForm.validate_new_password_repeat form (AccountForm.new_password_repeat form)
    = Return tt
  <->
  (data (AccountForm.new_password form) = "" /\
   data (AccountForm.new_password_repeat form) = "") \/
  (data (AccountForm.new_password_repeat form) = data (AccountForm.new_password form) /\
   data (AccountForm.new_password form) <> "" /\
   MIN_PWD_LEN config <= len (data (AccountForm.new_password form)) <= MAX_PWD_LEN config).
Proof.
  rewrite validate_new_password_repeat_Return_iff.
  unfold AccountForm.validate_new_password. rewrite !len_eqb_zero.
  destruct (String.eqb_spec (data (AccountForm.new_password form)) "") as [Hnp | Hnp].
  - destruct (String.eqb_spec (data (AccountForm.new_password_repeat form)) "")
      as [Hnpr | Hnpr]; simpl.
    + split; [now left | intros _; split; congruence].
    + rewrite valid_password_Return_iff. split.
      * intros [[Hne _] _]. contradiction.
      * intros [[_ Hempty] | [Heq [Hne _]]]; contradiction.
  - simpl. rewrite valid_password_Return_iff. split.
    + intros [Hvalid Heq]. right. tauto.
    + intros [[Hempty _] | [Heq Hvalid]]; [contradiction | tauto].
Qed.

(** X4: in [CompleteSignupForm] and in [CompleteResetForm], [valid_password]
    on the password and [validate_password_repeat] on the repeat both
    return exactly when the repeat equals the password and the password is
    non-empty with a length within the configured bounds; unlike in
    [AccountForm], two empty fields are not accepted. *)
Theorem set_password_accepted_iff
    (config : Config) (signup : CompleteSignupForm.t) (reset : CompleteResetForm.t) :
  (valid_password config signup (CompleteSignupForm.password signup) = Return tt /\
   CompleteSignupForm.validate_password_repeat signup
     (CompleteSignupForm.password_repeat signup) = Return tt
   <->
   data (CompleteSignupForm.password_repeat signup)
     = data (CompleteSignupForm.password signup) /\
   data (CompleteSignupForm.password signup) <> "" /\
   MIN_PWD_LEN config <= len (data (CompleteSignupForm.password signup))
     <= MAX_PWD_LEN config) /\
  (valid_password config reset (CompleteResetForm.password reset) = Return tt /\
   CompleteResetForm.validate_password_repeat reset
     (CompleteResetForm.password_repeat reset) = Return tt
   <->
   data (CompleteResetForm.password_repeat reset)
     = data (CompleteResetForm.password reset) /\
   data (CompleteResetForm.password reset) <> "" /\
   MIN_PWD_LEN config <= len (data (CompleteResetForm.password reset))
     <= MAX_PWD_LEN config).
Proof.
  unfold CompleteSignupForm.validate_password_repeat,
    CompleteResetForm.validate_password_repeat.
  rewrite !valid_password_Return_iff. split.
  - destruct (str_ne _ _) eqn:Hne.
    + apply str_ne_true in Hne. split; [intros [_ Hret]; discriminate | tauto].
    + apply str_ne_false in Hne. tauto.
  - destruct (str_ne _ _) eqn:Hne.
    + apply str_ne_true in Hne. split; [intros [_ Hret]; discriminate | tauto].
    + apply str_ne_false in Hne. tauto.
Qed.

(** ** Outcomes of [email_not_in_use] *)

Lemma email_not_in_use_check {F : Type} `{FormLike F}
    (has_user_field : bool) (table : UserTable) (form : F) (field : Field) (uid : Z) :
  (if negb has_user_field then Return (-1) else form_user_id form) = Return uid ->
  email_not_in_use has_user_field table form field = email_check uid table field.
Proof.
  intros Hid. unfold email_not_in_use. rewrite Hid. reflexivity.
Qed.

Lemma email_not_in_use_no_id {F : Type} `{FormLike F}
    (has_user_field : bool) (table : UserTable) (form : F) (field : Field) (e : exn) :
  (if negb has_user_field then Return (-1) else form_user_id form) = Raise e ->
  email_not_in_use has_user_field table form field = Raise e.
Proof.
  intros Hid. unfold email_not_in_use. rewrite Hid. reflexivity.
Qed.

Lemma email_check_cases (uid : Z) (table : UserTable) (field : Field) :
  email_check uid table field = Return tt \/
  email_check uid table field = Raise (ValidationError "This address is already in use").
Proof.
  unfold email_check. destruct (Query.first _) as [u|]; [| now left].
  destruct (_ && _); [now right | now left].
Qed.

Lemma email_check_raises_first (uid : Z) (table : UserTable) (field : Field) (e : exn) :
  email_check uid table field = Raise e <->
  e = ValidationError "This address is already in use" /\
  data field <> "" /\
  exists found,
    Query.first (Query.filter (fun u => String.eqb (User.email u) (data field)) table)
      = Some found /\
    User.id found <> uid.
Proof.
  unfold email_check.
  destruct (Query.first _) as [found|].
  - unfold int_ne. rewrite Z.gtb_ltb, <- len_zero_empty.
    pose proof (len_nonneg (data field)) as Hge.
    destruct (Z.eqb_spec (User.id found) uid) as [Hid | Hid];
      destruct (Z.ltb_spec 0 (len (data field))) as [Hpos | Hzero]; simpl.
    + split; [discriminate |]. intros (_ & _ & f & [= <-] & Hne). contradiction.
    + split; [discriminate |]. intros (_ & _ & f & [= <-] & Hne). contradiction.
    + split.
      * intros [= <-]. repeat split; [lia |]. now exists found.
      * intros (-> & _). reflexivity.
    + split; [discriminate |]. intros (_ & Hne & _). lia.
  - split; [discriminate |]. intros (_ & _ & f & Hnone & _). discriminate.
Qed.

(** Under unique addresses the row the lookup finds stands for all rows. *)
Lemma email_check_raises_unique (uid : Z) (table : UserTable) (field : Field) :
  email_unique table ->
  (email_check uid table field = Raise (ValidationError "This address is already in use")
   <->
   data field <> "" /\
   exists u, In u table /\ User.email u = data field /\ User.id u <> uid).
Proof.
  intros Hunique. rewrite email_check_raises_first. split.
  - intros (_ & Hne & found & Hfound & Hid).
    apply first_filter_Some in Hfound as [Hin Hemail]. apply String.eqb_eq in Hemail.
    split; [exact Hne |]. now exists found.
  - intros (Hne & u & Hin & Hemail & Hid).
    split; [reflexivity |]. split; [exact Hne |].
    destruct (proj1 (first_filter_exists
                       (fun u => String.eqb (User.email u) (data field)) table))
      as [found Hfound].
    { exists u. split; [exact Hin | now apply String.eqb_eq]. }
    exists found. split; [exact Hfound |].
    apply first_filter_Some in Hfound as [Hfin Hfemail]. apply String.eqb_eq in Hfemail.
    rewrite (Hunique found u Hfin Hin); congruence.
Qed.

(** X5: [email_not_in_use] never rejects an address nobody else holds: when
    it raises a [ValidationError], the message is 'This address is already
    in use', the submitted address is non-empty, and some row of the table
    has that address and an id other than the excluded one, which is -1
    without [has_user_field] and the id of the form's user with it. *)
Theorem email_not_in_use_rejects_only_taken {F : Type} `{FormLike F}
    (has_user_field : bool) (table : UserTable) (form : F) (field : Field) (msg : string) :
  email_not_in_use has_user_field table form field = Raise (ValidationError msg) ->
  msg = "This address is already in use" /\
  data field <> "" /\
  exists u, In u table /\ User.email u = data field /\
    (has_user_field = false -> User.id u <> -1) /\
    (forall me, has_user_field = true -> getattr_user form = Some (Some me) ->
       User.id u <> User.id me).
Proof.
  intros Hraise.
  destruct (if negb has_user_field then Return (-1) else form_user_id form)
    as [uid|e] eqn:Hid.
  - rewrite (email_not_in_use_check _ _ _ _ _ Hid) in Hraise.
    apply email_check_raises_first in Hraise as (Hmsg & Hne & found & Hfound & Hdiff).
    apply first_filter_Some in Hfound as [Hin Hemail]. apply String.eqb_eq in Hemail.
    injection Hmsg as ->. split; [reflexivity |]. split; [exact Hne |].
    exists found. repeat split; auto.
    + intros ->. simpl in Hid. now injection Hid as <-.
    + intros me -> Hme. simpl in Hid. unfold form_user_id in Hid.
      rewrite Hme in Hid. now injection Hid as <-.
  - rewrite (email_not_in_use_no_id _ _ _ _ _ Hid) in Hraise. injection Hraise as ->.
    destruct has_user_field; simpl in Hid; [| discriminate].
    unfold form_user_id in Hid. destruct (getattr_user form) as [[u|]|]; discriminate.
Qed.

Lemma email_not_in_use_rejects_only_taken_witness :
  "This address is already in use" = "This address is already in use" /\
  "bob@example.org" <> "" /\
  exists u, In u [bob; alice] /\ User.email u = "bob@example.org" /\
    (true = false -> User.id u <> -1) /\
    (forall me, true = true ->
       getattr_user sample_account_form = Some (Some me) -> User.id u <> User.id me).
Proof.
  apply (email_not_in_use_rejects_only_taken true [bob; alice] sample_account_form
           {| data := "bob@example.org" |} "This address is already in use").
  reflexivity.
Defined.

(** X6: [email_not_in_use] ends in an [AttributeError] exactly when
    [has_user_field] is set and the form has no user, be it that the
    attribute is missing or that it is [None]; the table and the submitted
    address play no part.  An [AccountForm] built without [obj] is such a
    form. *)
Theorem email_not_in_use_attribute_error {F : Type} `{FormLike F}
    (has_user_field : bool) (table : UserTable) (form : F) (field : Field) :
  (email_not_in_use has_user_field table form field = Raise AttributeError <->
   has_user_field = true /\
   (getattr_user form = None \/ getattr_user form = Some None)) /\
  (forall (cp np npr nm em : Field),
     AccountForm.email_validator table (AccountForm.init cp np npr nm em None) field
       = Raise AttributeError).
Proof.
  split; [| reflexivity].
  destruct (if negb has_user_field then Return (-1) else form_user_id form)
    as [uid|e] eqn:Hid.
  - rewrite (email_not_in_use_check _ _ _ _ _ Hid).
    split.
    + intros Hraise. destruct (email_check_cases uid table field) as [Hc | Hc];
        rewrite Hc in Hraise; discriminate.
    + intros [-> Hnone]. simpl in Hid. unfold form_user_id in Hid.
      destruct Hnone as [Hnone | Hnone]; rewrite Hnone in Hid; discriminate.
  - rewrite (email_not_in_use_no_id _ _ _ _ _ Hid).
    destruct has_user_field; simpl in Hid; [| discriminate].
    unfold form_user_id in Hid.
    destruct (getattr_user form) as [[u|]|]; try discriminate;
      injection Hid as <-; split; auto.
Qed.

(** X7: without [has_user_field], on a table in which no row has the id -1,
    [email_not_in_use] raises its [ValidationError] exactly when the
    submitted address is non-empty and some row holds it, and returns
    otherwise; the form is not read. *)
Theorem email_not_in_use_without_user_field {F : Type} `{FormLike F}
    (table : UserTable) (form : F) (field : Field) :
  (forall u, In u table -> User.id u <> -1) ->
  (email_not_in_use false table form field
     = Raise (ValidationError "This address is already in use")
   <-> data field <> "" /\ exists u, In u table /\ User.email u = data field) /\
  (email_not_in_use false table form field = Return tt
   <-> ~ (data field <> "" /\ exists u, In u table /\ User.email u = data field)).
Proof.
  intros Hids.
  rewrite (email_not_in_use_check false table form field (-1) eq_refl).
  assert (Hraise : email_check (-1) table field
                     = Raise (ValidationError "This address is already in use")
                   <-> data field <> "" /\
                       exists u, In u table /\ User.email u = data field).
  { rewrite email_check_raises_first. split.
    - intros (_ & Hne & found & Hfound & _).
      apply first_filter_Some in Hfound as [Hin Hemail]. apply String.eqb_eq in Hemail.
      split; [exact Hne |]. now exists found.
    - intros (Hne & u & Hin & Hemail).
      split; [reflexivity |]. split; [exact Hne |].
      destruct (proj1 (first_filter_exists
                         (fun u => String.eqb (User.email u) (data field)) table))
        as [found Hfound].
      { exists u. split; [exact Hin | now apply String.eqb_eq]. }
      exists found. split; [exact Hfound |].
      apply first_filter_Some in Hfound as [Hfin _]. now apply Hids. }
  split; [exact Hraise |].
  rewrite <- Hraise.
  destruct (email_check_cases (-1) table field) as [Hc | Hc]; rewrite Hc.
  - split; [discriminate | reflexivity].
  - split; [discriminate | intros Hno; now elim Hno].
Qed.

Lemma email_not_in_use_without_user_field_witness :
  (email_not_in_use false [alice; bob] sample_signup_form {| data := "bob@example.org" |}
     = Raise (ValidationError "This address is already in use")
   <-> "bob@example.org" <> "" /\
       exists u, In u [alice; bob] /\ User.email u = "bob@example.org") /\
  (email_not_in_use false [alice; bob] sample_signup_form {| data := "bob@example.org" |}
     = Return tt
   <-> ~ ("bob@example.org" <> "" /\
          exists u, In u [alice; bob] /\ User.email u = "bob@example.org")).
Proof.
  apply (email_not_in_use_without_user_field [alice; bob] sample_signup_form
           {| data := "bob@example.org" |}).
  intros u [<- | [<- | []]]; vm_compute; discriminate.
Defined.

(** ** Independence of the row order *)

(** X8: the outcome of [unique_username] does not depend on the order of
    the rows of the user table. *)
Theorem unique_username_permutation {F : Type}
    (table table' : UserTable) (form : F) (field : Field) :
  Permutation table table' ->
  unique_username table form field = unique_username table' form field.
Proof.
  intros Hperm. unfold unique_username.
  set (same_name := fun u : User.t => String.eqb (User.name u) (data field)).
  destruct (Query.first (Query.filter same_name table)) as [u|] eqn:Hfirst;
    destruct (Query.first (Query.filter same_name table')) as [u'|] eqn:Hfirst';
    try reflexivity; exfalso.
  - apply first_filter_Some in Hfirst as [Hin Hname].
    rewrite first_filter_None in Hfirst'.
    rewrite (Hfirst' u (Permutation_in u Hperm Hin)) in Hname. discriminate.
  - apply first_filter_Some in Hfirst' as [Hin Hname].
    rewrite first_filter_None in Hfirst.
    rewrite (Hfirst u' (Permutation_in u' (Permutation_sym Hperm) Hin)) in Hname.
    discriminate.
Qed.

Lemma unique_username_permutation_witness :
  unique_username [alice; bob] sample_signup_form {| data := "bob" |}
    = unique_username [bob; alice] sample_signup_form {| data := "bob" |}.
Proof.
  apply (unique_username_permutation [alice; bob] [bob; alice]).
  apply perm_swap.
Defined.

(** X9: on a table in which no two rows with different ids share an
    address, the outcome of [email_not_in_use] does not depend on the order
    of the rows. *)
Theorem email_not_in_use_permutation {F : Type} `{FormLike F}
    (has_user_field : bool) (table table' : UserTable) (form : F) (field : Field) :
  email_unique table ->
  Permutation table table' ->
  email_not_in_use has_user_field table form field
    = email_not_in_use has_user_field table' form field.
Proof.
  intros Hunique Hperm.
  assert (Hunique' : email_unique table').
  { intros u v Hu Hv.
    apply Hunique; apply (Permutation_in _ (Permutation_sym Hperm)); assumption. }
  destruct (if negb has_user_field then Return (-1) else form_user_id form)
    as [uid|e] eqn:Hid.
  - rewrite !(email_not_in_use_check _ _ _ _ _ Hid).
    assert (Hiff : email_check uid table field
                     = Raise (ValidationError "This address is already in use")
                   <-> email_check uid table' field
                     = Raise (ValidationError "This address is already in use")).
    { rewrite !email_check_raises_unique by assumption.
      split; intros (Hne & u & Hin & Hrest); (split; [exact Hne |]); exists u;
        (split; [| exact Hrest]).
      - exact (Permutation_in u Hperm Hin).
      - exact (Permutation_in u (Permutation_sym Hperm) Hin). }
    destruct (email_check_cases uid table field) as [Hc | Hc];
      destruct (email_check_cases uid table' field) as [Hc' | Hc'];
      rewrite Hc, Hc'; try reflexivity; exfalso.
    + apply Hiff in Hc'. congruence.
    + apply Hiff in Hc. congruence.
  - now rewrite !(email_not_in_use_no_id _ _ _ _ _ Hid).
Qed.

Lemma email_not_in_use_permutation_witness :
  email_not_in_use true [alice; bob] sample_account_form {| data := "bob@example.org" |}
    = email_not_in_use true [bob; alice] sample_account_form {| data := "bob@example.org" |}.
Proof.
  apply (email_not_in_use_permutation true [alice; bob] [bob; alice]).
  - intros u v Hu Hv Hemail. simpl in Hu, Hv.
    destruct Hu as [<- | [<- | []]]; destruct Hv as [<- | [<- | []]];
      try reflexivity; vm_compute in Hemail; discriminate.
  - apply perm_swap.
Defined.
